(** * ah_ee_image: tag reconciliation of execution environment images

    A shallow embedding of [plugins/modules/ah_ee_image.py] (function
    [main]) of the [ansible.hub] collection, with the remote hub and the
    module's collaborators as explicit state, and the properties of the
    module's specification proved about it.

    Conventions.
    - Python [str] is [string]; ordering of strings is by code point, as
      Python's [<] on [str] (for UTF-8 encoded text the byte order used
      here is the code point order).
    - A Python [set] of strings is a [gset string]; iteration over a set
      follows [elements], one fixed order among those Python may choose.
    - [module.exit_json] and [module.fail_json] end the process; the model
      is a state monad over the hub and the log of mutating requests, with
      an early stop.
    - The hub answers every request (a transport failure would end the
      module at that request), and the module runs outside check mode. *)

From stdpp Require Import gmap strings list fin_maps fin_sets.
From Stdlib Require Import Ascii String.

Local Open Scope string_scope.
Set Warnings "-clear-no-such-hyp".

(** ** Python strings *)

Module Py.

(** [a < b] on characters: comparison of code points. *)
Definition chr_lt (a b : ascii) : bool :=
  N.ltb (N_of_ascii a) (N_of_ascii b).

(** [s1 < s2] on [str]: lexicographic on code points, a proper prefix is
    smaller. *)
Fixpoint str_lt (s1 s2 : string) : bool :=
  match s1, s2 with
  | EmptyString, EmptyString => false
  | EmptyString, String _ _ => true
  | String _ _, EmptyString => false
  | String c1 s1', String c2 s2' =>
      if chr_lt c1 c2 then true
      else if chr_lt c2 c1 then false
      else str_lt s1' s2'
  end.

(** The last occurrence of [sep] in [s]: the text before it and the text
    after it, or [None] when [sep] does not occur. *)
Fixpoint rpartition (sep : ascii) (s : string) : option (string * string) :=
  match s with
  | EmptyString => None
  | String c s' =>
      match rpartition sep s' with
      | Some (before, after) => Some (String c before, after)
      | None => if Ascii.eqb c sep then Some (EmptyString, s') else None
      end
  end.

(** [s.rsplit(sep, 1)] for a one-character separator. *)
Definition rsplit1 (sep : ascii) (s : string) : list string :=
  match rpartition sep s with
  | Some (before, after) => [before; after]
  | None => [s]
  end.

(** [sep in s]. *)
Fixpoint contains (sep : ascii) (s : string) : bool :=
  match s with
  | EmptyString => false
  | String c s' => Ascii.eqb c sep || contains sep s'
  end.

(** [l[i]] on a list of strings, for an index in range. *)
Definition item (l : list string) (i : nat) : string := nth i l "".

(** [bool(s)] on a set: true when the set is not empty. *)
Definition bool_of_set (s : gset string) : bool :=
  negb (bool_decide (s = ∅)).

End Py.

(** ** The remote hub *)

(** Modelled from the spec: the hub itself is not part of the module. A
    repository is the glossary's labelling: each tag is a mutable label
    pointing at one digest. *)
Record hub : Type := Hub {
  server_version : string;
  repositories : gmap string (gmap string string)
}.

(** The tags of the image [digest] in a repository. *)
Definition image_tags (repo : gmap string string) (digest : string) : gset string :=
  dom (filter (λ kv, kv.2 = digest) repo).

(** The repository after a series of [create_tag] requests for the image
    [digest], and after a series of [delete_tag] requests. *)
Definition tagged (digest : string) (l : list string)
    (repo : gmap string string) : gmap string string :=
  foldl (λ r t, <[t := digest]> r) repo l.

Definition untagged (digest : string) (l : list string)
    (repo : gmap string string) : gmap string string :=
  foldl (λ r t, filter (λ kv, ¬ (kv.1 = t ∧ kv.2 = digest)) r) repo l.

(** The mutating requests the module can send. *)
Inductive call : Type :=
  | DeleteImage (repository digest : string)
  | CreateTag (repository digest tag : string)
  | DeleteTag (repository digest tag : string).

#[global] Instance call_eq_dec : EqDecision call.
Proof. solve_decision. Defined.

Record world : Type := World {
  w_hub : hub;
  w_calls : list call
}.

(** ** Module termination and the module monad *)

Inductive json_value : Type :=
  | JStr (s : string)
  | JBool (b : bool).

Definition json := list (string * json_value).

Inductive termination : Type :=
  | ExitJson (output : json)
  | FailJson (msg : string)
  | TypeError (msg : string).

Inductive result (A : Type) : Type :=
  | Ret (a : A)
  | Stop (t : termination).
Arguments Ret {A} a.
Arguments Stop {A} t.

Definition M (A : Type) : Type := world → world * result A.

#[global] Instance M_ret : MRet M := λ A a w, (w, Ret a).
#[global] Instance M_bind : MBind M := λ A B f m w,
  match m w with
  | (w', Ret a) => f a w'
  | (w', Stop t) => (w', Stop t)
  end.

Definition run {A} (m : M A) (w : world) : world * result A := m w.

Definition stop {A} (t : termination) : M A := λ w, (w, Stop t).

Fixpoint for_each {A} (l : list A) (body : A → M unit) : M unit :=
  match l with
  | [] => mret tt
  | x :: l' => body x ;; for_each l' body
  end.

(** Sends one mutating request: the hub changes and the request is logged. *)
Definition request (c : call) (f : hub → hub) : M unit := λ w,
  (World (f (w_hub w)) (w_calls w ++ [c]), Ret tt).

Definition update_repository (name : string)
    (f : gmap string string → gmap string string) (h : hub) : hub :=
  Hub (server_version h) (alter f name (repositories h)).

(** ** Collaborators *)

(** Modelled from the spec: [AHAPIModule] (module_utils/ah_api_module.py)
    is missing; [exit_json] and [fail_json] are its termination primitives,
    [authenticate] and [get_server_version] its transport, taken here on a
    hub that answers. *)
Definition exit_json {A} (output : json) : M A := stop (ExitJson output).
Definition fail_json {A} (msg : string) : M A := stop (FailJson msg).
Definition authenticate : M unit := mret tt.
Definition get_server_version : M string := λ w, (w, Ret (server_version (w_hub w))).

(** Modelled from the spec: [AHPulpEERepository]
    (module_utils/ah_pulp_object.py) is missing. [get_object] binds the
    object to a repository name and records whether it exists. *)
Record pulp_repository : Type := PulpRepository {
  repository_name : string;
  exists_ : bool
}.

Definition get_object (name : string) : M pulp_repository := λ w,
  (w, Ret (PulpRepository name (bool_decide (is_Some (repositories (w_hub w) !! name))))).

(** Modelled from the spec: [delete_image(digest)] deletes the entire image
    (all its tags) and reports [changed = true]; called without
    [auto_exit=False] it ends the module. *)
Definition delete_image {A} (repository_pulp : pulp_repository) (digest : string) : M A :=
  let name := repository_name repository_pulp in
  request (DeleteImage name digest)
    (update_repository name (filter (λ kv, kv.2 ≠ digest))) ;;
  exit_json [("changed", JBool true)].

(** Modelled from the spec: [create_tag(digest, tag)] makes [tag] point at
    [digest]; with [auto_exit=False] it returns to the caller. The request
    is answered: a transport failure, which would end the module here, is
    outside the model. *)
Definition create_tag (repository_pulp : pulp_repository) (digest tag : string) : M unit :=
  let name := repository_name repository_pulp in
  request (CreateTag name digest tag) (update_repository name (<[tag := digest]>)).

(** Modelled from the spec: [delete_tag(digest, tag)] removes the label
    [tag] from the image [digest]; with [auto_exit=False] it returns to the
    caller. The request is answered, as for [create_tag]. *)
Definition delete_tag (repository_pulp : pulp_repository) (digest tag : string) : M unit :=
  let name := repository_name repository_pulp in
  request (DeleteTag name digest tag)
    (update_repository name (filter (λ kv, ¬ (kv.1 = tag ∧ kv.2 = digest)))).

(** Modelled from the spec: [AHUIEEImage] (module_utils/ah_ui_object.py) is
    missing. [get_tag(name, tag, vers)] resolves the tag to the digest it
    points at and to the tags of that image; an absent digest means the tag
    does not exist. *)
Record ui_image : Type := UIImage {
  ui_digest : option string;
  ui_tags : list string
}.

Definition get_tag (name tag vers : string) : M ui_image := λ w,
  match repositories (w_hub w) !! name with
  | Some repo =>
      match repo !! tag with
      | Some d => (w, Ret (UIImage (Some d) (elements (image_tags repo d))))
      | None => (w, Ret (UIImage None []))
      end
  | None => (w, Ret (UIImage None []))
  end.

(** ** The module *)

Inductive state_choice : Type := present | absent.

Record module_params : Type := Params {
  p_name : string;
  p_tags : option (list string);
  p_append : bool;
  p_state : state_choice
}.

Definition json_output (name tag : string) (changed : bool) : json :=
  [("name", JStr name); ("tag", JStr tag); ("type", JStr "image");
   ("changed", JBool changed)].

(** [set(tags)]: a list becomes the set of its elements; [None] is not
    iterable. *)
Definition set_of (l : option (list string)) : M (gset string) :=
  match l with
  | Some elems => mret ((list_to_set elems) : gset string)
  | None => stop (TypeError "'NoneType' object is not iterable")
  end.

(** [tags is None or len(tags) == 0]. *)
Definition none_or_empty (l : option (list string)) : bool :=
  match l with
  | None => true
  | Some l => Nat.eqb (List.length l) 0
  end.

(** Lines 118-120. *)
Definition image_name (name_with_tag : string) : string :=
  let name_tag := Py.rsplit1 ":" name_with_tag in
  Py.item name_tag 0.

Definition image_tag (name_with_tag : string) : string :=
  let name_tag := Py.rsplit1 ":" name_with_tag in
  if Nat.eqb (List.length name_tag) 1 then "latest" else Py.item name_tag 1.

Definition version_message (vers : string) : string :=
  "This module requires private automation hub version 4.3.2 or later. Your version is " +:+ vers.

Definition repository_message (name : string) : string :=
  "The " +:+ name +:+ " repository does not exist.".

Definition tag_message (tag name : string) : string :=
  "The image tag " +:+ tag +:+ " for the " +:+ name +:+ " repository does not exist.".

(** Lines 166-193: the reconciliation of the tags of an image. *)
Definition reconcile_tags (repository_pulp : pulp_repository)
    (name tag digest : string) (image_ui_tags : list string)
    (tags : option (list string)) (append : bool) : M unit :=
  let current_tags : gset string := list_to_set image_ui_tags in
  new_tags ← set_of tags;
  let tags_to_add := new_tags ∖ current_tags in
  for_each (elements tags_to_add) (λ t, create_tag repository_pulp digest t) ;;
  (if append then exit_json (json_output name tag (Py.bool_of_set tags_to_add))
   else mret tt) ;;
  let tags_to_remove := current_tags ∖ new_tags in
  for_each (elements tags_to_remove) (λ t, delete_tag repository_pulp digest t) ;;
  exit_json (json_output name tag
               (Py.bool_of_set tags_to_remove || Py.bool_of_set tags_to_add)).

(** Lines 148-193: what the module does once the tag is looked up. *)
Definition apply_state (repository_pulp : pulp_repository)
    (name tag : string) (image_ui : ui_image)
    (tags : option (list string)) (append : bool) (state : state_choice) : M unit :=
  (match state with
   | absent =>
       match ui_digest image_ui with
       | None => exit_json (json_output name tag false)
       | Some d => delete_image repository_pulp d
       end
   | present => mret tt
   end) ;;
  match ui_digest image_ui with
  | None => fail_json (tag_message tag name)
  | Some d =>
      (if none_or_empty tags then
         (if append then exit_json (json_output name tag false) else mret tt) ;;
         delete_image repository_pulp d
       else mret tt) ;;
      reconcile_tags repository_pulp name tag d (ui_tags image_ui) tags append
  end.

Definition main (params : module_params) : M unit :=
  let name_with_tag := p_name params in
  let tags := p_tags params in
  let append := p_append params in
  let state := p_state params in
  let name := image_name name_with_tag in
  let tag := image_tag name_with_tag in
  authenticate ;;
  vers ← get_server_version;
  (if Py.str_lt vers "4.3.2" then fail_json (version_message vers) else mret tt) ;;
  repository_pulp ← get_object name;
  (if negb (exists_ repository_pulp) then fail_json (repository_message name)
   else mret tt) ;;
  vers ← get_server_version;
  image_ui ← get_tag name tag vers;
  apply_state repository_pulp name tag image_ui tags append state.

(** ** The reconciliation plan

    What lines 166-193 compute from the current tags of the image and the
    [tags] option: the tags to add (line 170), the tags to remove (line 184,
    none in append mode, where the module exits at line 181) and the
    [changed] flag (lines 179 and 191). [run_reconcile_tags] below proves
    that [reconcile_tags] sends exactly these requests. *)
Definition tags_to_add (current_tags : gset string) (tags : list string) : gset string :=
  list_to_set tags ∖ current_tags.

Definition tags_to_remove (current_tags : gset string) (tags : list string)
    (append : bool) : gset string :=
  if append then ∅ else current_tags ∖ list_to_set tags.

Definition changed (current_tags : gset string) (tags : list string)
    (append : bool) : bool :=
  if append then Py.bool_of_set (tags_to_add current_tags tags)
  else Py.bool_of_set (tags_to_remove current_tags tags append)
       || Py.bool_of_set (tags_to_add current_tags tags).

(** The tags of the image once the additions, then the removals, are
    applied. *)
Definition resulting_tags (current_tags : gset string) (tags : list string)
    (append : bool) : gset string :=
  (current_tags ∪ tags_to_add current_tags tags)
  ∖ tags_to_remove current_tags tags append.

(** The hub accepts the module: the test of line 127 does not fire. *)
Definition supported (h : hub) : Prop :=
  Py.str_lt (server_version h) "4.3.2" = false.

(** The output's [changed] field. *)
Definition changed_of (t : termination) : option bool :=
  match t with
  | ExitJson output =>
      match List.find (λ kv, String.eqb (fst kv) "changed") output with
      | Some (_, JBool b) => Some b
      | _ => None
      end
  | _ => None
  end.

(** ** Versions as the documentation reads them *)

(** The module's notes say it "only works with private automation hub
    v4.3.2 or later". [Version] reads a version string as the documentation
    does: dot-separated decimal numbers, ordered component by component. It
    follows the documentation's words and is compared with the test of
    line 127, which orders the strings themselves. *)
Module Version.

Definition digit (c : ascii) : option N :=
  let n := N_of_ascii c in
  if (48 <=? n)%N && (n <=? 57)%N then Some (n - 48)%N else None.

Fixpoint components (s : string) (cur : option N) (acc : list N) : option (list N) :=
  match s with
  | EmptyString =>
      match cur with
      | Some n => Some (rev (n :: acc))
      | None => None
      end
  | String c s' =>
      if Ascii.eqb c "." then
        match cur with
        | Some n => components s' None (n :: acc)
        | None => None
        end
      else
        match digit c with
        | Some d => components s' (Some (10 * default 0%N cur + d)%N) acc
        | None => None
        end
  end.

Definition parse (s : string) : option (list N) := components s None [].

(** [below a b]: [a] is an earlier version than [b]; a missing component
    counts as zero. *)
Fixpoint below (a b : list N) : bool :=
  match a, b with
  | [], [] => false
  | [], y :: b' => if (0 <? y)%N then true else below [] b'
  | x :: a', [] => false
  | x :: a', y :: b' =>
      if (x <? y)%N then true
      else if (y <? x)%N then false
      else below a' b'
  end.

Definition minimum : list N := [4; 3; 2]%N.

End Version.

(** The tag a request is about, when it is about one. *)
Definition call_tag (c : call) : option string :=
  match c with
  | CreateTag _ _ t | DeleteTag _ _ t => Some t
  | DeleteImage _ _ => None
  end.

(** ** A sample hub

    One repository, [ee], with an image tagged [v1] and [v2] and another
    image tagged [old]; the specification's examples run on it. *)
Definition sample_repo : gmap string string :=
  <["v1" := "sha256:aa"]> (<["v2" := "sha256:aa"]> (<["old" := "sha256:bb"]> ∅)).

Definition sample_world : world :=
  World (Hub "4.3.2" (<["ee" := sample_repo]> ∅)) [].

(** ** The paths of the module

    The repository and the digest a request is about. *)
Definition call_repository (c : call) : string :=
  match c with
  | DeleteImage r _ | CreateTag r _ _ | DeleteTag r _ _ => r
  end.

Definition call_digest (c : call) : string :=
  match c with
  | DeleteImage _ d | CreateTag _ d _ | DeleteTag _ d _ => d
  end.

(** The ways a run of [main] on the parameters [p] and the world [w] can
    end: one constructor for each exit of lines 126-193, with the condition
    under which the module takes it. [main_path_run] proves that every run
    ends in one of them. *)
Inductive main_path (p : module_params) (w : world) : world * result unit → Prop :=
  | path_unsupported :
      Py.str_lt (server_version (w_hub w)) "4.3.2" = true →
      main_path p w
        (w, Stop (FailJson (version_message (server_version (w_hub w)))))
  | path_no_repository :
      supported (w_hub w) →
      repositories (w_hub w) !! image_name (p_name p) = None →
      main_path p w
        (w, Stop (FailJson (repository_message (image_name (p_name p)))))
  | path_absent_already repo :
      supported (w_hub w) →
      repositories (w_hub w) !! image_name (p_name p) = Some repo →
      repo !! image_tag (p_name p) = None →
      p_state p = absent →
      main_path p w
        (w, Stop (ExitJson (json_output (image_name (p_name p))
                              (image_tag (p_name p)) false)))
  | path_no_tag repo :
      supported (w_hub w) →
      repositories (w_hub w) !! image_name (p_name p) = Some repo →
      repo !! image_tag (p_name p) = None →
      p_state p = present →
      main_path p w
        (w, Stop (FailJson (tag_message (image_tag (p_name p))
                              (image_name (p_name p)))))
  | path_nothing_to_do repo d :
      supported (w_hub w) →
      repositories (w_hub w) !! image_name (p_name p) = Some repo →
      repo !! image_tag (p_name p) = Some d →
      p_state p = present →
      none_or_empty (p_tags p) = true →
      p_append p = true →
      main_path p w
        (w, Stop (ExitJson (json_output (image_name (p_name p))
                              (image_tag (p_name p)) false)))
  | path_delete_image repo d :
      supported (w_hub w) →
      repositories (w_hub w) !! image_name (p_name p) = Some repo →
      repo !! image_tag (p_name p) = Some d →
      p_state p = absent
      ∨ (p_state p = present ∧ none_or_empty (p_tags p) = true
         ∧ p_append p = false) →
      main_path p w
        (World (update_repository (image_name (p_name p))
                  (filter (λ kv, kv.2 ≠ d)) (w_hub w))
               (w_calls w ++ [DeleteImage (image_name (p_name p)) d]),
         Stop (ExitJson [("changed", JBool true)]))
  | path_reconcile repo d req :
      supported (w_hub w) →
      repositories (w_hub w) !! image_name (p_name p) = Some repo →
      repo !! image_tag (p_name p) = Some d →
      p_state p = present →
      p_tags p = Some req →
      req ≠ [] →
      main_path p w
        (World (update_repository (image_name (p_name p))
                  (untagged d (elements (tags_to_remove (image_tags repo d) req
                                           (p_append p)))
                   ∘ tagged d (elements (tags_to_add (image_tags repo d) req)))
                  (w_hub w))
               (w_calls w
                ++ (CreateTag (image_name (p_name p)) d
                      <$> elements (tags_to_add (image_tags repo d) req))
                ++ (DeleteTag (image_name (p_name p)) d
                      <$> elements (tags_to_remove (image_tags repo d) req
                                      (p_append p)))),
         Stop (ExitJson (json_output (image_name (p_name p))
                           (image_tag (p_name p))
                           (changed (image_tags repo d) req (p_append p))))).

(** ** Version strings with one digit for each component *)

Definition digit_char (n : N) : ascii := ascii_of_N (48 + n).

(** The text [a.b.c]. *)
Definition dotted (a b c : N) : string :=
  String (digit_char a)
    (String "." (String (digit_char b) (String "." (String (digit_char c) "")))).

Definition digits : list N := [0; 1; 2; 3; 4; 5; 6; 7; 8; 9]%N.

(** On [a.b.c], the test of line 127 and the order of versions give the
    same answer. *)
Definition agrees (a b c : N) : bool :=
  bool_decide (Version.parse (dotted a b c) = Some [a; b; c])
  && Bool.eqb (Py.str_lt (dotted a b c) "4.3.2")
       (Version.below [a; b; c] Version.minimum).

(** * Properties *)

(** ** Image references (lines 118-120) *)

Section image_reference.

Lemma rpartition_None sep s :
  Py.rpartition sep s = None ↔ Py.contains sep s = false.
Proof.
  induction s as [|c s IH]; simpl; [done|].
  destruct (Py.rpartition sep s) as [[before after]|].
  - split; [done|]. intros [_ H]%orb_false_iff.
    apply IH in H. done.
  - destruct (Ascii.eqb c sep); simpl; [done|].
    split; [intros _; by apply IH | done].
Qed.

Lemma rpartition_app sep a b :
  Py.contains sep b = false →
  Py.rpartition sep (a +:+ String sep b) = Some (a, b).
Proof.
  intros Hb. induction a as [|c a IH]; simpl.
  - apply rpartition_None in Hb. rewrite Hb, Ascii.eqb_refl. done.
  - rewrite IH. done.
Qed.

Lemma rpartition_Some sep s a b :
  Py.rpartition sep s = Some (a, b) →
  s = a +:+ String sep b ∧ Py.contains sep b = false.
Proof.
  revert a. induction s as [|c s IH]; intros a; simpl; [done|].
  destruct (Py.rpartition sep s) as [[before after]|] eqn:Hs.
  - intros [= <- <-]. destruct (IH before eq_refl) as [-> Hc]. done.
  - destruct (Ascii.eqb_spec c sep) as [->|]; [|done].
    intros [= <- <-]. split; [done|]. by apply rpartition_None.
Qed.

Lemma rsplit1_length sep s :
  List.length (Py.rsplit1 sep s) = 1 ∨ List.length (Py.rsplit1 sep s) = 2.
Proof.
  unfold Py.rsplit1. destruct (Py.rpartition sep s) as [[? ?]|]; auto.
Qed.

Lemma image_reference_no_colon s :
  Py.contains ":" s = false → image_name s = s ∧ image_tag s = "latest".
Proof.
  intros H%rpartition_None. unfold image_name, image_tag, Py.rsplit1.
  rewrite H. done.
Qed.

Lemma image_reference_colon a b :
  Py.contains ":" b = false →
  image_name (a +:+ String ":" b) = a ∧ image_tag (a +:+ String ":" b) = b.
Proof.
  intros H. unfold image_name, image_tag, Py.rsplit1.
  rewrite (rpartition_app _ _ _ H). done.
Qed.

Lemma image_name_empty s :
  image_name s = "" ↔
  s = "" ∨ ∃ b, Py.contains ":" b = false ∧ s = String ":" b.
Proof.
  unfold image_name, Py.rsplit1, Py.item.
  destruct (Py.rpartition ":" s) as [[before after]|] eqn:Hs; simpl.
  - apply rpartition_Some in Hs as [-> Hc]. split.
    + intros ->. right. by exists after.
    + intros [H|(b & Hb & H)].
      * by destruct before.
      * destruct before as [|c before]; [done|]. simpl in H.
        injection H as -> H. exfalso.
        assert (Py.contains ":" b = true) as Hb'; [|congruence].
        rewrite <- H. clear. induction before as [|c before IH]; simpl.
        -- done.
        -- rewrite IH. by rewrite orb_true_r.
  - split; [by left|]. intros [->|(b & Hb & ->)]; [done|].
    simpl in Hs. destruct (Py.rpartition ":" b) as [[? ?]|]; done.
Qed.

End image_reference.

(** ** The hub: tags of an image under the three requests *)

Section hub_facts.

Implicit Types (repo : gmap string string) (d t : string).

Lemma elem_of_image_tags repo d t :
  t ∈ image_tags repo d ↔ repo !! t = Some d.
Proof.
  unfold image_tags. rewrite elem_of_dom. unfold is_Some.
  setoid_rewrite map_lookup_filter_Some. simpl. naive_solver.
Qed.

Lemma image_tags_create repo d t :
  image_tags (<[t := d]> repo) d = {[t]} ∪ image_tags repo d.
Proof.
  apply set_eq. intros t'.
  rewrite elem_of_union, elem_of_singleton, !elem_of_image_tags.
  rewrite lookup_insert. case_decide; naive_solver.
Qed.

Lemma image_tags_untag repo d t :
  image_tags (filter (λ kv, ¬ (kv.1 = t ∧ kv.2 = d)) repo) d
  = image_tags repo d ∖ {[t]}.
Proof.
  apply set_eq. intros t'.
  rewrite elem_of_difference, elem_of_singleton, !elem_of_image_tags.
  rewrite map_lookup_filter_Some. simpl. naive_solver.
Qed.

Lemma image_tags_deleted repo d :
  image_tags (filter (λ kv, kv.2 ≠ d) repo) d = ∅.
Proof.
  apply set_eq. intros t'.
  rewrite elem_of_image_tags, map_lookup_filter_Some. simpl.
  split; [naive_solver | set_solver].
Qed.

Lemma image_tags_tagged d l repo :
  image_tags (tagged d l repo) d = image_tags repo d ∪ list_to_set l.
Proof.
  revert repo. induction l as [|t l IH]; intros repo; simpl.
  - set_solver.
  - unfold tagged in *. simpl. rewrite IH, image_tags_create. set_solver.
Qed.

Lemma image_tags_untagged d l repo :
  image_tags (untagged d l repo) d = image_tags repo d ∖ list_to_set l.
Proof.
  revert repo. induction l as [|t l IH]; intros repo; simpl.
  - set_solver.
  - unfold untagged in *. simpl. rewrite IH, image_tags_untag. set_solver.
Qed.

Lemma update_repository_id name h :
  update_repository name (λ r, r) h = h.
Proof.
  destruct h as [v rs]. unfold update_repository. simpl. f_equal.
  apply map_eq. intros k. rewrite lookup_alter.
  case_decide; [subst; by destruct (rs !! k) | done].
Qed.

Lemma update_repository_compose name f g h :
  update_repository name g (update_repository name f h)
  = update_repository name (g ∘ f) h.
Proof.
  unfold update_repository. simpl. f_equal. apply alter_alter_eq.
Qed.

Lemma update_repository_lookup name f h repo :
  repositories h !! name = Some repo →
  repositories (update_repository name f h) !! name = Some (f repo).
Proof. intros H. simpl. rewrite lookup_alter_eq, H. done. Qed.

Lemma update_repository_version name f h :
  server_version (update_repository name f h) = server_version h.
Proof. done. Qed.

End hub_facts.

(** ** Running the module *)

Lemma run_bind {A B} (m : M A) (f : A → M B) w :
  run (m ≫= f) w =
  match run m w with
  | (w', Ret a) => run (f a) w'
  | (w', Stop t) => (w', Stop t)
  end.
Proof. done. Qed.

Lemma run_ret {A} (a : A) w : run (mret a) w = (w, Ret a).
Proof. done. Qed.

Lemma run_exit_json {A} output w :
  run (exit_json (A:=A) output) w = (w, Stop (ExitJson output)).
Proof. done. Qed.

Lemma run_fail_json {A} msg w :
  run (fail_json (A:=A) msg) w = (w, Stop (FailJson msg)).
Proof. done. Qed.

(** One step of a run: the first computation of a sequence. *)
Ltac run_step :=
  lazymatch goal with
  | |- context [@run _ (@mbind _ _ ?A ?B ?f ?m) ?w] =>
      rewrite (@run_bind A B m f w)
  end.

Section running.

Lemma run_create_tags rp d l w :
  run (for_each l (λ t, create_tag rp d t)) w =
  (World (update_repository (repository_name rp) (tagged d l) (w_hub w))
         (w_calls w ++ (CreateTag (repository_name rp) d <$> l)),
   Ret tt).
Proof.
  revert w. induction l as [|t l IH]; intros [h cs]; simpl.
  - unfold run, mret, M_ret. simpl.
    rewrite app_nil_r. unfold tagged. simpl.
    by rewrite update_repository_id.
  - rewrite run_bind. unfold create_tag at 1, request, run at 1. simpl.
    rewrite IH. simpl. rewrite update_repository_compose, <- app_assoc. done.
Qed.

Lemma run_delete_tags rp d l w :
  run (for_each l (λ t, delete_tag rp d t)) w =
  (World (update_repository (repository_name rp) (untagged d l) (w_hub w))
         (w_calls w ++ (DeleteTag (repository_name rp) d <$> l)),
   Ret tt).
Proof.
  revert w. induction l as [|t l IH]; intros [h cs]; simpl.
  - unfold run, mret, M_ret. simpl.
    rewrite app_nil_r. unfold untagged. simpl.
    by rewrite update_repository_id.
  - rewrite run_bind. unfold delete_tag at 1, request, run at 1. simpl.
    rewrite IH. simpl. rewrite update_repository_compose, <- app_assoc. done.
Qed.

End running.

(** ** Reconciliation (lines 166-193) *)

Section reconciliation.

Lemma bool_of_set_empty : Py.bool_of_set ∅ = false.
Proof. unfold Py.bool_of_set. by rewrite bool_decide_eq_true_2. Qed.

Lemma bool_of_set_true s : Py.bool_of_set s = true ↔ s ≠ ∅.
Proof.
  unfold Py.bool_of_set. rewrite negb_true_iff, bool_decide_eq_false. done.
Qed.

Lemma bool_of_set_false s : Py.bool_of_set s = false ↔ s = ∅.
Proof.
  unfold Py.bool_of_set. rewrite negb_false_iff, bool_decide_eq_true. done.
Qed.

Lemma resulting_tags_append (current : gset string) req :
  resulting_tags current req true = current ∪ list_to_set req.
Proof.
  unfold resulting_tags, tags_to_add, tags_to_remove.
  apply set_eq. intros t.
  destruct (decide (t ∈ current)); set_unfold; tauto.
Qed.

Lemma resulting_tags_replace (current : gset string) req :
  resulting_tags current req false = list_to_set req.
Proof.
  unfold resulting_tags, tags_to_add, tags_to_remove.
  apply set_eq. intros t.
  destruct (decide (t ∈ current)),
    (decide (t ∈ (list_to_set req : gset string))); set_unfold; tauto.
Qed.



(** [reconcile_tags] sends the additions of the plan, then its removals,
    and exits with the plan's [changed]. *)
Lemma run_reconcile_tags rp name tag d cur req append w :
  let add := tags_to_add (list_to_set cur) req in
  let remove := tags_to_remove (list_to_set cur) req append in
  run (reconcile_tags rp name tag d cur (Some req) append) w =
  (World (update_repository (repository_name rp)
            (untagged d (elements remove) ∘ tagged d (elements add)) (w_hub w))
         (w_calls w ++ (CreateTag (repository_name rp) d <$> elements add)
                    ++ (DeleteTag (repository_name rp) d <$> elements remove)),
   Stop (ExitJson (json_output name tag (changed (list_to_set cur) req append)))).
Proof.
  intros add remove. unfold reconcile_tags. simpl.
  run_step. rewrite run_ret. cbv beta iota.
  run_step. rewrite run_create_tags. cbv beta iota.
  fold (tags_to_add (list_to_set cur) req). fold add.
  subst remove. unfold changed, tags_to_remove. destruct append.
  - run_step. rewrite run_exit_json.
    rewrite elements_empty. simpl. rewrite app_nil_r. done.
  - run_step. rewrite run_ret. cbv beta iota.
    run_step. rewrite run_delete_tags. cbv beta iota.
    rewrite run_exit_json. simpl.
    rewrite update_repository_compose, <- app_assoc. done.
Qed.

End reconciliation.

(** ** The module, step by step *)

Section module_runs.

Lemma run_get_server_version w :
  run get_server_version w = (w, Ret (server_version (w_hub w))).
Proof. done. Qed.

Lemma run_get_object name w :
  run (get_object name) w =
  (w, Ret (PulpRepository name
             (bool_decide (is_Some (repositories (w_hub w) !! name))))).
Proof. done. Qed.

Lemma run_get_tag name tag vers w repo :
  repositories (w_hub w) !! name = Some repo →
  run (get_tag name tag vers) w =
  (w, Ret match repo !! tag with
          | Some d => UIImage (Some d) (elements (image_tags repo d))
          | None => UIImage None []
          end).
Proof.
  intros H. unfold run, get_tag. rewrite H. by destruct (repo !! tag).
Qed.

Lemma run_delete_image {A} rp d w :
  run (delete_image (A:=A) rp d) w =
  (World (update_repository (repository_name rp)
            (filter (λ kv, kv.2 ≠ d)) (w_hub w))
         (w_calls w ++ [DeleteImage (repository_name rp) d]),
   Stop (ExitJson [("changed", JBool true)])).
Proof. done. Qed.

(** The version test of line 127 stops the module before any request. *)
Lemma run_main_unsupported p w :
  Py.str_lt (server_version (w_hub w)) "4.3.2" = true →
  run (main p) w =
  (w, Stop (FailJson (version_message (server_version (w_hub w))))).
Proof.
  intros Hv. unfold main. cbv zeta.
  run_step. unfold authenticate. rewrite run_ret. cbv beta iota.
  run_step. rewrite run_get_server_version. cbv beta iota.
  run_step. rewrite Hv, run_fail_json. done.
Qed.

(** A repository that does not exist stops the module (line 138). *)
Lemma run_main_no_repository p w :
  supported (w_hub w) →
  repositories (w_hub w) !! image_name (p_name p) = None →
  run (main p) w =
  (w, Stop (FailJson (repository_message (image_name (p_name p))))).
Proof.
  intros Hv Hr. unfold main. cbv zeta.
  run_step. unfold authenticate. rewrite run_ret. cbv beta iota.
  run_step. rewrite run_get_server_version. cbv beta iota.
  run_step. rewrite Hv, run_ret. cbv beta iota.
  run_step. rewrite run_get_object, Hr. cbv beta iota.
  run_step. rewrite bool_decide_eq_false_2 by (by intros [? ?]).
  cbn [exists_ negb]. rewrite run_fail_json. done.
Qed.

(** On a supported hub and an existing repository the module reaches
    line 148 with the image looked up and nothing sent yet. *)
Lemma run_main_looked_up p w repo :
  supported (w_hub w) →
  repositories (w_hub w) !! image_name (p_name p) = Some repo →
  run (main p) w =
  run (apply_state (PulpRepository (image_name (p_name p)) true)
         (image_name (p_name p)) (image_tag (p_name p))
         match repo !! image_tag (p_name p) with
         | Some d => UIImage (Some d) (elements (image_tags repo d))
         | None => UIImage None []
         end
         (p_tags p) (p_append p) (p_state p)) w.
Proof.
  intros Hv Hr. unfold main. cbv zeta.
  run_step. unfold authenticate. rewrite run_ret. cbv beta iota.
  run_step. rewrite run_get_server_version. cbv beta iota.
  run_step. rewrite Hv, run_ret. cbv beta iota.
  run_step. rewrite run_get_object, Hr. cbv beta iota.
  run_step. rewrite bool_decide_eq_true_2 by eauto.
  cbn [exists_ negb]. rewrite run_ret. cbv beta iota.
  run_step. rewrite run_get_server_version. cbv beta iota.
  run_step. rewrite (run_get_tag _ _ _ _ _ Hr). done.
Qed.

End module_runs.

(** ** The reconciliation path of [main] *)

Section main_reconciles.

Lemma none_or_empty_Some req : req ≠ [] → none_or_empty (Some req) = false.
Proof. by destruct req. Qed.

Lemma resulting_tags_hub repo d add remove :
  image_tags ((untagged d (elements remove) ∘ tagged d (elements add)) repo) d
  = (image_tags repo d ∪ add) ∖ remove.
Proof.
  simpl. rewrite image_tags_untagged, image_tags_tagged.
  by rewrite !list_to_set_elements_L.
Qed.

(** With [state=present], a resolved digest and a non-empty [tags] list,
    [main] sends the additions of the plan, then its removals, and exits
    with the plan's [changed]. *)
Lemma run_main_reconciles p w repo d req :
  supported (w_hub w) →
  repositories (w_hub w) !! image_name (p_name p) = Some repo →
  repo !! image_tag (p_name p) = Some d →
  p_state p = present →
  p_tags p = Some req →
  req ≠ [] →
  let name := image_name (p_name p) in
  let current := image_tags repo d in
  let add := tags_to_add current req in
  let remove := tags_to_remove current req (p_append p) in
  run (main p) w =
  (World (update_repository name
            (untagged d (elements remove) ∘ tagged d (elements add)) (w_hub w))
         (w_calls w ++ (CreateTag name d <$> elements add)
                    ++ (DeleteTag name d <$> elements remove)),
   Stop (ExitJson (json_output name (image_tag (p_name p))
                     (changed current req (p_append p))))).
Proof.
  intros Hv Hr Hd Hs Ht Hne name current add remove.
  rewrite (run_main_looked_up _ _ _ Hv Hr), Hd, Hs, Ht.
  unfold apply_state. cbn [ui_digest ui_tags].
  run_step. rewrite run_ret. cbv beta iota.
  run_step. rewrite (none_or_empty_Some _ Hne), run_ret. cbv beta iota.
  rewrite run_reconcile_tags. cbn [repository_name].
  rewrite list_to_set_elements_L. done.
Qed.

End main_reconciles.

(** * The claims *)

(** ** C1: the version gate *)

(** C1. The gate of line 127 orders the version strings as text, not as
    versions. A hub that reports version 4.10.0, which the documentation's
    reading places after 4.3.2, is refused: whatever the parameters and the
    repositories, [main] stops with the version failure, the hub and the
    log of requests as they were. *)
Theorem version_gate_refuses_4_10_0 (p : module_params)
    (repos : gmap string (gmap string string)) (calls : list call) :
  run (main p) (World (Hub "4.10.0" repos) calls)
  = (World (Hub "4.10.0" repos) calls,
     Stop (FailJson (version_message "4.10.0")))
  ∧ Version.parse "4.10.0" = Some [4; 10; 0]%N
  ∧ Version.below [4; 10; 0]%N Version.minimum = false.
Proof.
  split; [|done]. by apply run_main_unsupported.
Qed.

(** ** C7: the image reference *)

(** C7, as stated, at the name [":v1"]: the last colon is the first
    character and the repository name is empty; so it is for the empty
    name. *)
Lemma image_name_can_be_empty :
  image_name ":v1" = "" ∧ image_tag ":v1" = "v1" ∧ image_name "" = "".
Proof. done. Qed.

(** C7, amended. The name is split on its last colon: without a colon the
    repository name is the whole name and the tag is ["latest"]; otherwise
    the repository name is the text before the last colon and the tag the
    text after it. The repository name is empty exactly when the name is
    empty or its last colon is its first character. *)
Theorem image_reference_split (s : string) :
  (Py.contains ":" s = false → image_name s = s ∧ image_tag s = "latest")
  ∧ (∀ a b, s = a +:+ String ":" b → Py.contains ":" b = false →
       image_name s = a ∧ image_tag s = b)
  ∧ (image_name s = "" ↔
     s = "" ∨ ∃ b, Py.contains ":" b = false ∧ s = String ":" b).
Proof.
  split; [apply image_reference_no_colon|]. split.
  - intros a b -> Hb. by apply image_reference_colon.
  - apply image_name_empty.
Qed.

Lemma image_reference_split_witness :
  image_name "ee-supported-rhel8:2.0" = "ee-supported-rhel8"
  ∧ image_tag "ee-supported-rhel8:2.0" = "2.0".
Proof.
  apply (proj1 (proj2 (image_reference_split "ee-supported-rhel8:2.0"))
           "ee-supported-rhel8" "2.0"); reflexivity.
Defined.

(** ** C2 and C3: append and replace *)





(** ** C4, C5 and C6: deletion, missing tag, empty request *)

Section whole_image.

Lemma deleted_image_lookup (repo : gmap string string) (d t d' : string) :
  d' ≠ d →
  filter (λ kv : string * string, kv.2 ≠ d) repo !! t = Some d'
  ↔ repo !! t = Some d'.
Proof. intros Hd. rewrite map_lookup_filter_Some. simpl. naive_solver. Qed.

End whole_image.

(** C4. With [state=absent] on an existing repository: a tag that resolves
    to no digest makes the module exit with [changed=false], nothing sent;
    a tag that resolves makes it send the single request [delete_image],
    after which the image has no tag left and the other images keep
    theirs, and exit with [changed=true]. No tag is added or removed one by
    one. The repository is looked up on a hub that passed the version
    gate. *)
Theorem absent_deletes_image (p : module_params) (w : world)
    (repo : gmap string string) :
  supported (w_hub w) →
  repositories (w_hub w) !! image_name (p_name p) = Some repo →
  p_state p = absent →
  let name := image_name (p_name p) in
  let tag := image_tag (p_name p) in
  (repo !! tag = None →
   run (main p) w = (w, Stop (ExitJson (json_output name tag false))))
  ∧ (∀ d, repo !! tag = Some d →
     ∃ (w' : world) (repo' : gmap string string) (t : termination),
       run (main p) w = (w', Stop t)
       ∧ t = ExitJson [("changed", JBool true)]
       ∧ changed_of t = Some true
       ∧ w_calls w' = (w_calls w ++ [DeleteImage name d])%list
       ∧ repositories (w_hub w') !! name = Some repo'
       ∧ image_tags repo' d = ∅
       ∧ ∀ t' d', d' ≠ d → repo' !! t' = Some d' ↔ repo !! t' = Some d').
Proof.
  intros Hv Hr Hs name tag. split.
  - intros Hd. rewrite (run_main_looked_up _ _ _ Hv Hr), Hs.
    fold tag. rewrite Hd. unfold apply_state. cbn [ui_digest].
    run_step. rewrite run_exit_json. by destruct w.
  - intros d Hd. eexists _, _, _. split.
    { rewrite (run_main_looked_up _ _ _ Hv Hr), Hs.
      fold tag. rewrite Hd. unfold apply_state. cbn [ui_digest].
      run_step. rewrite run_delete_image. done. }
    cbn [w_calls w_hub repository_name]. split; [done|].
    split; [done|]. split; [done|]. split.
    { by apply update_repository_lookup. }
    split; [apply image_tags_deleted|].
    intros t' d' Hne. by apply deleted_image_lookup.
Qed.

Lemma absent_deletes_image_witness :
  ∃ (w' : world) (repo' : gmap string string) (t : termination),
    run (main (Params "ee:v1" None true absent)) sample_world = (w', Stop t)
    ∧ t = ExitJson [("changed", JBool true)]
    ∧ changed_of t = Some true
    ∧ w_calls w' = [DeleteImage "ee" "sha256:aa"]
    ∧ repositories (w_hub w') !! "ee" = Some repo'
    ∧ image_tags repo' "sha256:aa" = ∅
    ∧ ∀ t' d', d' ≠ "sha256:aa" →
        repo' !! t' = Some d' ↔ sample_repo !! t' = Some d'.
Proof.
  refine (proj2 (absent_deletes_image (Params "ee:v1" None true absent)
                   sample_world sample_repo _ _ _) "sha256:aa" _);
    reflexivity.
Defined.

(** C5. With [state=present] on an existing repository, a tag that resolves
    to no digest makes the module fail with the message that the tag does
    not exist; nothing is sent and the hub is as it was. *)
Theorem present_needs_existing_tag (p : module_params) (w : world)
    (repo : gmap string string) :
  supported (w_hub w) →
  repositories (w_hub w) !! image_name (p_name p) = Some repo →
  repo !! image_tag (p_name p) = None →
  p_state p = present →
  run (main p) w
  = (w, Stop (FailJson (tag_message (image_tag (p_name p))
                          (image_name (p_name p))))).
Proof.
  intros Hv Hr Hd Hs. rewrite (run_main_looked_up _ _ _ Hv Hr), Hs, Hd.
  unfold apply_state. cbn [ui_digest].
  run_step. rewrite run_ret. cbv beta iota. by rewrite run_fail_json.
Qed.

Lemma present_needs_existing_tag_witness :
  run (main (Params "ee:v9" (Some ["v2"]) true present)) sample_world
  = (sample_world,
     Stop (FailJson "The image tag v9 for the ee repository does not exist.")).
Proof.
  apply (present_needs_existing_tag (Params "ee:v9" (Some ["v2"]) true present)
           sample_world sample_repo); reflexivity.
Defined.

(** C6. With [state=present], a resolved digest and [tags] unset or empty:
    in append mode the module exits with [changed=false] and sends nothing;
    in replace mode it sends the single request [delete_image], after which
    the image has no tag left. *)
Theorem empty_request (p : module_params) (w : world)
    (repo : gmap string string) (d : string) :
  supported (w_hub w) →
  repositories (w_hub w) !! image_name (p_name p) = Some repo →
  repo !! image_tag (p_name p) = Some d →
  p_state p = present →
  p_tags p = None ∨ p_tags p = Some [] →
  let name := image_name (p_name p) in
  let tag := image_tag (p_name p) in
  (p_append p = true →
   run (main p) w = (w, Stop (ExitJson (json_output name tag false))))
  ∧ (p_append p = false →
     ∃ (w' : world) (repo' : gmap string string) (t : termination),
       run (main p) w = (w', Stop t)
       ∧ w_calls w' = (w_calls w ++ [DeleteImage name d])%list
       ∧ repositories (w_hub w') !! name = Some repo'
       ∧ image_tags repo' d = ∅).
Proof.
  intros Hv Hr Hd Hs Ht name tag.
  assert (none_or_empty (p_tags p) = true) as He
    by (destruct Ht as [-> | ->]; done).
  split.
  - intros Ha. rewrite (run_main_looked_up _ _ _ Hv Hr), Hs, Hd, Ha.
    unfold apply_state. cbn [ui_digest].
    run_step. rewrite run_ret. cbv beta iota.
    run_step. rewrite He. run_step. rewrite run_exit_json. by destruct w.
  - intros Ha. eexists _, _, _. split.
    { rewrite (run_main_looked_up _ _ _ Hv Hr), Hs, Hd, Ha.
      unfold apply_state. cbn [ui_digest].
      run_step. rewrite run_ret. cbv beta iota.
      run_step. rewrite He. run_step. rewrite run_ret. cbv beta iota.
      rewrite run_delete_image. done. }
    cbn [w_calls w_hub repository_name]. split; [done|]. split.
    { by apply update_repository_lookup. }
    apply image_tags_deleted.
Qed.

Lemma empty_request_witness :
  run (main (Params "ee:v1" (Some []) true present)) sample_world
  = (sample_world, Stop (ExitJson (json_output "ee" "v1" false))).
Proof.
  refine (proj1 (empty_request (Params "ee:v1" (Some []) true present)
                   sample_world sample_repo "sha256:aa" _ _ _ _ _) _);
    first [ reflexivity | by right ].
Defined.

(** ** C10: the tags common to both sets *)

(** C10. On the reconciliation path (in append and in replace mode) the
    tags to add and the tags to remove are disjoint; the requests sent are
    the [create_tag] of the first and the [delete_tag] of the second; and a
    tag that is both current and requested is in neither set, is named by
    no request, and still points at the image afterwards. *)
Theorem common_tags_untouched (p : module_params) (w : world)
    (repo : gmap string string) (d : string) (req : list string) :
  supported (w_hub w) →
  repositories (w_hub w) !! image_name (p_name p) = Some repo →
  repo !! image_tag (p_name p) = Some d →
  p_state p = present →
  p_tags p = Some req →
  req ≠ [] →
  let name := image_name (p_name p) in
  let current := image_tags repo d in
  let requested : gset string := list_to_set req in
  let add := tags_to_add current req in
  let remove := tags_to_remove current req (p_append p) in
  add ## remove
  ∧ ∃ (w' : world) (repo' : gmap string string) (sent : list call)
      (t : termination),
      run (main p) w = (w', Stop t)
      ∧ w_calls w' = (w_calls w ++ sent)%list
      ∧ (∀ c, c ∈ sent ↔
           (∃ x, x ∈ add ∧ c = CreateTag name d x)
           ∨ (∃ x, x ∈ remove ∧ c = DeleteTag name d x))
      ∧ repositories (w_hub w') !! name = Some repo'
      ∧ ∀ x, x ∈ current → x ∈ requested →
          (x ∉ add) ∧ (x ∉ remove)
          ∧ (∀ c, c ∈ sent → call_tag c ≠ Some x)
          ∧ repo' !! x = Some d.
Proof.
  intros Hv Hr Hd Hs Ht Hne name current requested add remove.
  assert (∀ x, x ∈ current → x ∈ requested → (x ∉ add) ∧ (x ∉ remove))
    as Hcommon.
  { intros x Hc Hq. subst add remove. unfold tags_to_add, tags_to_remove.
    fold requested. destruct (p_append p); set_unfold; tauto. }
  split.
  { subst add remove. unfold tags_to_add, tags_to_remove. fold requested.
    destruct (p_append p); set_unfold; intros x; tauto. }
  eexists _, _, _, _. split.
  { by rewrite (run_main_reconciles p w repo d req Hv Hr Hd Hs Ht Hne). }
  cbn [w_calls w_hub]. fold name add remove. split; [done|].
  assert (∀ c : call,
             c ∈ ((CreateTag name d <$> elements add)
                  ++ (DeleteTag name d <$> elements remove))%list ↔
               (∃ x, x ∈ add ∧ c = CreateTag name d x)
               ∨ (∃ x, x ∈ remove ∧ c = DeleteTag name d x)) as Hsent.
  { intros c. rewrite elem_of_app, !list_elem_of_fmap.
    setoid_rewrite elem_of_elements. naive_solver. }
  split; [exact Hsent|]. split.
  { by apply update_repository_lookup. }
  intros x Hc Hq. destruct (Hcommon x Hc Hq) as [Hna Hnr].
  split; [done|]. split; [done|]. split.
  - intros c [(y & Hy & ->)|(y & Hy & ->)]%Hsent; simpl; congruence.
  - apply elem_of_image_tags. rewrite resulting_tags_hub.
    fold current add remove. set_unfold. tauto.
Qed.

Lemma common_tags_untouched_witness :
  tags_to_add (image_tags sample_repo "sha256:aa") ["v2"; "v3"]
    ## tags_to_remove (image_tags sample_repo "sha256:aa") ["v2"; "v3"] false
  ∧ ∃ (w' : world) (repo' : gmap string string) (sent : list call)
      (t : termination),
      run (main (Params "ee:v1" (Some ["v2"; "v3"]) false present)) sample_world
      = (w', Stop t)
      ∧ w_calls w' = sent
      ∧ (∀ c, c ∈ sent ↔
           (∃ x, x ∈ tags_to_add (image_tags sample_repo "sha256:aa") ["v2"; "v3"]
                 ∧ c = CreateTag "ee" "sha256:aa" x)
           ∨ (∃ x, x ∈ tags_to_remove (image_tags sample_repo "sha256:aa")
                         ["v2"; "v3"] false
                   ∧ c = DeleteTag "ee" "sha256:aa" x))
      ∧ repositories (w_hub w') !! "ee" = Some repo'
      ∧ ∀ x, x ∈ image_tags sample_repo "sha256:aa" →
          x ∈ (list_to_set ["v2"; "v3"] : gset string) →
          (x ∉ tags_to_add (image_tags sample_repo "sha256:aa") ["v2"; "v3"])
          ∧ (x ∉ tags_to_remove (image_tags sample_repo "sha256:aa")
                   ["v2"; "v3"] false)
          ∧ (∀ c, c ∈ sent → call_tag c ≠ Some x)
          ∧ repo' !! x = Some "sha256:aa".
Proof.
  apply (common_tags_untouched
           (Params "ee:v1" (Some ["v2"; "v3"]) false present)
           sample_world sample_repo "sha256:aa" ["v2"; "v3"]);
    first [ discriminate | reflexivity ].
Defined.

(** ** C8: idempotence *)

Section idempotence.

Lemma resulting_tags_add_none (current : gset string) req append :
  tags_to_add (resulting_tags current req append) req = ∅.
Proof.
  destruct append.
  - rewrite resulting_tags_append. unfold tags_to_add.
    apply set_eq. intros t. set_unfold. tauto.
  - rewrite resulting_tags_replace. unfold tags_to_add.
    apply set_eq. intros t. set_unfold. tauto.
Qed.

Lemma resulting_tags_remove_none (current : gset string) req append :
  tags_to_remove (resulting_tags current req append) req append = ∅.
Proof.
  destruct append; [done|].
  rewrite resulting_tags_replace. unfold tags_to_remove.
  apply set_eq. intros t. set_unfold. tauto.
Qed.

Lemma resulting_tags_unchanged (current : gset string) req append :
  changed (resulting_tags current req append) req append = false.
Proof.
  assert (tags_to_add (resulting_tags current req append) req = ∅) as Ha
    by apply resulting_tags_add_none.
  assert (tags_to_remove (resulting_tags current req append) req append = ∅)
    as Hr by apply resulting_tags_remove_none.
  unfold changed. rewrite Ha, Hr, bool_of_set_empty. by destruct append.
Qed.

End idempotence.

(** C8. One application of the reconciliation (lines 166-193) to the tags
    of an image leaves the image with the plan's resulting tags; a second
    application of the same [tags] and [append] to those tags computes
    empty sets of tags to add and to remove, sends nothing, leaves the hub
    as it is and exits with [changed=false]. *)
Theorem reconcile_twice (rp : pulp_repository) (name tag d : string)
    (w : world) (repo : gmap string string) (req : list string)
    (append : bool) :
  repositories (w_hub w) !! repository_name rp = Some repo →
  let current := image_tags repo d in
  let w1 := (run (reconcile_tags rp name tag d (elements current)
                    (Some req) append) w).1 in
  ∃ repo1 : gmap string string,
    repositories (w_hub w1) !! repository_name rp = Some repo1
    ∧ image_tags repo1 d = resulting_tags current req append
    ∧ tags_to_add (image_tags repo1 d) req = ∅
    ∧ tags_to_remove (image_tags repo1 d) req append = ∅
    ∧ changed (image_tags repo1 d) req append = false
    ∧ run (reconcile_tags rp name tag d (elements (image_tags repo1 d))
             (Some req) append) w1
      = (w1, Stop (ExitJson (json_output name tag false))).
Proof.
  intros Hr current w1. subst w1.
  rewrite run_reconcile_tags. cbn [fst w_hub].
  rewrite list_to_set_elements_L. fold current.
  set (add := tags_to_add current req).
  set (remove := tags_to_remove current req append).
  set (repo1 := (untagged d (elements remove) ∘ tagged d (elements add)) repo).
  assert (image_tags repo1 d = resulting_tags current req append) as Hres
    by apply resulting_tags_hub.
  exists repo1. split; [by apply update_repository_lookup|].
  rewrite Hres.
  split; [done|].
  split; [apply resulting_tags_add_none|].
  split; [apply resulting_tags_remove_none|].
  split; [apply resulting_tags_unchanged|].
  rewrite run_reconcile_tags, list_to_set_elements_L.
  rewrite resulting_tags_add_none, resulting_tags_remove_none,
    resulting_tags_unchanged, elements_empty.
  cbn [fmap list_fmap w_hub w_calls]. unfold tagged, untagged. simpl.
  rewrite !app_nil_r. f_equal. f_equal.
  apply (update_repository_id (repository_name rp)).
Qed.

Lemma reconcile_twice_witness :
  let w1 := (run (reconcile_tags (PulpRepository "ee" true) "ee" "v1"
                    "sha256:aa" (elements (image_tags sample_repo "sha256:aa"))
                    (Some ["v2"; "v3"]) false) sample_world).1 in
  ∃ repo1 : gmap string string,
    repositories (w_hub w1) !! "ee" = Some repo1
    ∧ image_tags repo1 "sha256:aa"
      = resulting_tags (image_tags sample_repo "sha256:aa") ["v2"; "v3"] false
    ∧ tags_to_add (image_tags repo1 "sha256:aa") ["v2"; "v3"] = ∅
    ∧ tags_to_remove (image_tags repo1 "sha256:aa") ["v2"; "v3"] false = ∅
    ∧ changed (image_tags repo1 "sha256:aa") ["v2"; "v3"] false = false
    ∧ run (reconcile_tags (PulpRepository "ee" true) "ee" "v1" "sha256:aa"
             (elements (image_tags repo1 "sha256:aa"))
             (Some ["v2"; "v3"]) false) w1
      = (w1, Stop (ExitJson (json_output "ee" "v1" false))).
Proof.
  apply (reconcile_twice (PulpRepository "ee" true) "ee" "v1" "sha256:aa"
           sample_world sample_repo ["v2"; "v3"] false).
  reflexivity.
Defined.

(** ** C9: tags are compared as sets, and exactly *)

Section set_semantics.

Lemma list_to_set_same (l l' : list string) :
  (∀ t, t ∈ l ↔ t ∈ l') → (list_to_set l : gset string) = list_to_set l'.
Proof.
  intros H. apply set_eq. intros t. rewrite !elem_of_list_to_set. apply H.
Qed.

Lemma same_elements_nil (l l' : list string) :
  (∀ t, t ∈ l ↔ t ∈ l') → none_or_empty (Some l) = none_or_empty (Some l').
Proof.
  intros H. destruct l as [|x l], l' as [|y l']; simpl; try done.
  - assert (y ∈ []) as Hy by (apply H; left). by apply elem_of_nil in Hy.
  - assert (x ∈ []) as Hx by (apply H; left). by apply elem_of_nil in Hx.
Qed.

Lemma plan_same_sets (cur cur' req req' : list string) append :
  (∀ t, t ∈ cur ↔ t ∈ cur') →
  (∀ t, t ∈ req ↔ t ∈ req') →
  tags_to_add (list_to_set cur) req = tags_to_add (list_to_set cur') req'
  ∧ tags_to_remove (list_to_set cur) req append
    = tags_to_remove (list_to_set cur') req' append
  ∧ changed (list_to_set cur) req append
    = changed (list_to_set cur') req' append.
Proof.
  intros Hc%list_to_set_same Hq%list_to_set_same.
  unfold changed, tags_to_add, tags_to_remove. by rewrite Hc, Hq.
Qed.

Lemma distinct_tags (t t' : string) append :
  t ≠ t' →
  tags_to_add {[t]} [t'] = {[t']}
  ∧ tags_to_remove {[t]} [t'] false = {[t]}
  ∧ changed {[t]} [t'] append = true.
Proof.
  intros Hne.
  assert (tags_to_add {[t]} [t'] = {[t']}) as Ha.
  { unfold tags_to_add. apply set_eq. intros x. set_unfold. naive_solver. }
  assert (tags_to_remove {[t]} [t'] false = {[t]}) as Hr.
  { unfold tags_to_remove. apply set_eq. intros x. set_unfold. naive_solver. }
  split; [done|]. split; [done|].
  unfold changed. rewrite Ha.
  assert (Py.bool_of_set {[t']} = true) as ->.
  { apply bool_of_set_true. intros He.
    assert (t' ∈ (∅ : gset string)) as Hin by (rewrite <- He; set_solver).
    by apply not_elem_of_empty in Hin. }
  destruct append; [done|]. by rewrite orb_true_r.
Qed.

End set_semantics.

Section requests_of_a_run.

Lemma elem_of_tags_to_add (cur req : list string) x :
  x ∈ tags_to_add (list_to_set cur) req ↔ x ∈ req ∧ x ∉ cur.
Proof.
  unfold tags_to_add.
  rewrite elem_of_difference, !elem_of_list_to_set. done.
Qed.

Lemma elem_of_tags_to_remove (cur req : list string) append x :
  x ∈ tags_to_remove (list_to_set cur) req append ↔
  append = false ∧ x ∈ cur ∧ x ∉ req.
Proof.
  unfold tags_to_remove. destruct append.
  - split; [by intros ?%not_elem_of_empty | by intros [? _]].
  - rewrite elem_of_difference, !elem_of_list_to_set. naive_solver.
Qed.

Lemma nonempty_set (X : gset string) : X ≠ ∅ ↔ ∃ x, x ∈ X.
Proof.
  split; [apply set_choose_L|].
  intros [x Hx] ->. by apply not_elem_of_empty in Hx.
Qed.

(** One run of lines 166-193 on the lists [cur] and [req]: the requests it
    sends and the flag it reports, told by membership in the two lists. *)
Lemma run_reconcile_tags_members rp name tag d (cur req : list string)
    append w :
  ∃ (w1 : world) (sent : list call) (flag : bool),
    run (reconcile_tags rp name tag d cur (Some req) append) w
    = (w1, Stop (ExitJson (json_output name tag flag)))
    ∧ w_calls w1 = (w_calls w ++ sent)%list
    ∧ NoDup sent
    ∧ (∀ c, c ∈ sent ↔
         (∃ x, x ∈ req ∧ (x ∉ cur) ∧ c = CreateTag (repository_name rp) d x)
         ∨ (append = false
            ∧ ∃ x, x ∈ cur ∧ (x ∉ req)
                   ∧ c = DeleteTag (repository_name rp) d x))
    ∧ (flag = true ↔
       (∃ x, x ∈ req ∧ x ∉ cur) ∨ (append = false ∧ ∃ x, x ∈ cur ∧ x ∉ req)).
Proof.
  eexists _, _, _. split; [apply run_reconcile_tags|].
  cbn [w_calls]. split; [done|]. split.
  { apply NoDup_app. split; [|split].
    - apply NoDup_fmap_2; [by intros ?? [=] | apply NoDup_elements].
    - intros c (x & -> & _)%list_elem_of_fmap (y & [=] & _)%list_elem_of_fmap.
    - apply NoDup_fmap_2; [by intros ?? [=] | apply NoDup_elements]. }
  split.
  { intros c. rewrite elem_of_app, !list_elem_of_fmap.
    setoid_rewrite elem_of_elements.
    setoid_rewrite elem_of_tags_to_add.
    setoid_rewrite elem_of_tags_to_remove. naive_solver. }
  assert (changed (list_to_set cur) req append = true ↔
          tags_to_add (list_to_set cur) req ≠ ∅
          ∨ tags_to_remove (list_to_set cur) req append ≠ ∅) as ->.
  { unfold changed. destruct append.
    - rewrite bool_of_set_true. unfold tags_to_remove. naive_solver.
    - rewrite orb_true_iff, !bool_of_set_true. naive_solver. }
  rewrite !nonempty_set.
  setoid_rewrite elem_of_tags_to_add.
  setoid_rewrite elem_of_tags_to_remove. naive_solver.
Qed.

End requests_of_a_run.

(** C9. The comparison of tags is on sets. Lines 166-193 run on two lists
    of current tags with the same elements and on two [tags] lists with the
    same elements, in any order and with any repetitions, report the same
    [changed] flag and send the same requests, each once: a [create_tag]
    for every tag that is in the requested list and not in the current
    one, and in replace mode a [delete_tag] for every tag that is in the
    current list and not in the requested one; the flag is true exactly
    when there is such a tag. The tags to add, the tags to remove and the
    flag of the plan are equal as well. The comparison is exact: on a
    current tag [t] and a requested tag [t'] that is another string, be it
    by the case of one letter as ["v1"] and ["V1"], the run creates [t'],
    removes [t] in replace mode and reports [changed=true]. *)
Theorem tag_comparison_on_sets (rp : pulp_repository) (name tag d : string)
    (w : world) (cur cur' req req' : list string) (append : bool) :
  (∀ t, t ∈ cur ↔ t ∈ cur') →
  (∀ t, t ∈ req ↔ t ∈ req') →
  (∃ (w1 w2 : world) (sent1 sent2 : list call) (flag : bool),
     run (reconcile_tags rp name tag d cur (Some req) append) w
     = (w1, Stop (ExitJson (json_output name tag flag)))
     ∧ run (reconcile_tags rp name tag d cur' (Some req') append) w
       = (w2, Stop (ExitJson (json_output name tag flag)))
     ∧ w_calls w1 = (w_calls w ++ sent1)%list
     ∧ w_calls w2 = (w_calls w ++ sent2)%list
     ∧ sent1 ≡ₚ sent2
     ∧ NoDup sent1
     ∧ (∀ c, c ∈ sent1 ↔
          (∃ x, x ∈ req ∧ (x ∉ cur) ∧ c = CreateTag (repository_name rp) d x)
          ∨ (append = false
             ∧ ∃ x, x ∈ cur ∧ (x ∉ req)
                    ∧ c = DeleteTag (repository_name rp) d x))
     ∧ (flag = true ↔
        (∃ x, x ∈ req ∧ x ∉ cur)
        ∨ (append = false ∧ ∃ x, x ∈ cur ∧ x ∉ req)))
  ∧ (tags_to_add (list_to_set cur) req = tags_to_add (list_to_set cur') req'
     ∧ tags_to_remove (list_to_set cur) req append
       = tags_to_remove (list_to_set cur') req' append
     ∧ changed (list_to_set cur) req append
       = changed (list_to_set cur') req' append)
  ∧ (∀ (t t' : string) (w0 : world), t ≠ t' →
       ∃ (w3 : world) (sent : list call),
         run (reconcile_tags rp name tag d [t] (Some [t']) append) w0
         = (w3, Stop (ExitJson (json_output name tag true)))
         ∧ w_calls w3 = (w_calls w0 ++ sent)%list
         ∧ CreateTag (repository_name rp) d t' ∈ sent
         ∧ (CreateTag (repository_name rp) d t ∉ sent)
         ∧ (append = false → DeleteTag (repository_name rp) d t ∈ sent))
  ∧ "v1" ≠ "V1".
Proof.
  intros Hc Hq. split; [|split; [by apply plan_same_sets|split; [|done]]].
  - destruct (run_reconcile_tags_members rp name tag d cur req append w)
      as (w1 & sent1 & flag1 & Hrun1 & Hcalls1 & Hnd1 & Hin1 & Hflag1).
    destruct (run_reconcile_tags_members rp name tag d cur' req' append w)
      as (w2 & sent2 & flag2 & Hrun2 & Hcalls2 & Hnd2 & Hin2 & Hflag2).
    assert (flag2 = flag1) as ->.
    { assert (flag2 = true ↔ flag1 = true) as Hiff.
      { rewrite Hflag1, Hflag2.
        setoid_rewrite Hc. setoid_rewrite Hq. done. }
      destruct flag1, flag2; naive_solver. }
    exists w1, w2, sent1, sent2, flag1.
    repeat (split; [done|]). split; [|done].
    apply NoDup_Permutation; [done|done|].
    intros c. rewrite Hin1, Hin2.
    setoid_rewrite Hc. setoid_rewrite Hq. done.
  - intros t t' w0 Hne.
    destruct (run_reconcile_tags_members rp name tag d [t] [t'] append w0)
      as (w3 & sent & flag & Hrun & Hcalls & _ & Hin & Hflag).
    assert (t' ∈ [t'] ∧ (t' ∉ [t])) as [Hreq Hcur].
    { split; [by left|]. by intros ?%list_elem_of_singleton. }
    assert (flag = true) as ->.
    { apply Hflag. left. by exists t'. }
    exists w3, sent. split; [done|]. split; [done|]. split.
    { apply Hin. left. by exists t'. }
    split.
    { intros [(x & Hx & Hnx & [= <-])|(_ & x & _ & _ & [=])]%Hin.
      apply Hnx. by left. }
    intros ->. apply Hin. right. split; [done|]. exists t.
    split; [by left|]. split; [|done].
    intros ?%list_elem_of_singleton. congruence.
Qed.

Lemma tag_comparison_on_sets_witness :
  ∃ (w1 w2 : world) (sent1 sent2 : list call) (flag : bool),
    run (reconcile_tags (PulpRepository "ee" true) "ee" "v1" "sha256:aa"
           ["v1"; "v2"] (Some ["v2"; "v3"]) false) sample_world
    = (w1, Stop (ExitJson (json_output "ee" "v1" flag)))
    ∧ run (reconcile_tags (PulpRepository "ee" true) "ee" "v1" "sha256:aa"
             ["v2"; "v1"; "v2"] (Some ["v3"; "v3"; "v2"]) false) sample_world
      = (w2, Stop (ExitJson (json_output "ee" "v1" flag)))
    ∧ w_calls w1 = sent1
    ∧ w_calls w2 = sent2
    ∧ sent1 ≡ₚ sent2
    ∧ NoDup sent1
    ∧ (∀ c, c ∈ sent1 ↔
         (∃ x, x ∈ ["v2"; "v3"] ∧ (x ∉ ["v1"; "v2"])
               ∧ c = CreateTag "ee" "sha256:aa" x)
         ∨ (false = false
            ∧ ∃ x, x ∈ ["v1"; "v2"] ∧ (x ∉ ["v2"; "v3"])
                   ∧ c = DeleteTag "ee" "sha256:aa" x))
    ∧ (flag = true ↔
       (∃ x, x ∈ ["v2"; "v3"] ∧ x ∉ ["v1"; "v2"])
       ∨ (false = false ∧ ∃ x, x ∈ ["v1"; "v2"] ∧ x ∉ ["v2"; "v3"])).
Proof.
  refine (proj1 (tag_comparison_on_sets (PulpRepository "ee" true) "ee" "v1"
                   "sha256:aa" sample_world ["v1"; "v2"] ["v2"; "v1"; "v2"]
                   ["v2"; "v3"] ["v3"; "v3"; "v2"] false _ _));
    intros t; rewrite !elem_of_cons, !elem_of_nil; tauto.
Defined.

(** ** Two runs of the module *)

Section two_runs.

Lemma tagged_lookup d l (repo : gmap string string) t :
  tagged d l repo !! t = if decide (t ∈ l) then Some d else repo !! t.
Proof.
  revert repo. induction l as [|x l IH]; intros repo.
  - unfold tagged. simpl.
    destruct (decide (t ∈ [])) as [H|]; [by apply elem_of_nil in H | done].
  - unfold tagged in *. simpl. rewrite IH.
    destruct (decide (t ∈ l)) as [Hl|Hl].
    + rewrite decide_True; [done | by right].
    + rewrite lookup_insert.
      destruct (decide (x = t)) as [->|Hx].
      * rewrite decide_True; [done | by left].
      * rewrite decide_False; [done|].
        intros [?|?]%elem_of_cons; congruence.
Qed.

Lemma untagged_lookup_Some d l (repo : gmap string string) t d' :
  untagged d l repo !! t = Some d' → repo !! t = Some d'.
Proof.
  revert repo. induction l as [|x l IH]; intros repo; [done|].
  unfold untagged in *. simpl. intros H%IH.
  by apply map_lookup_filter_Some in H as [H _].
Qed.

Lemma deleted_unresolved (repo : gmap string string) (d t d' : string) :
  repo !! t = Some d →
  filter (λ kv : string * string, kv.2 ≠ d) repo !! t = Some d' → False.
Proof.
  intros Hd [Hd' Hne]%map_lookup_filter_Some. simpl in Hne. congruence.
Qed.

Lemma none_or_empty_false o :
  none_or_empty o = false → ∃ req, o = Some req ∧ req ≠ [].
Proof. destruct o as [[|x l]|]; [done| |done]. intros _. by eexists. Qed.

(** The runs of [main] that end without reconciliation, on a supported
    hub and an existing repository. *)
Lemma run_main_unresolved p w repo :
  supported (w_hub w) →
  repositories (w_hub w) !! image_name (p_name p) = Some repo →
  repo !! image_tag (p_name p) = None →
  run (main p) w =
  (w, Stop match p_state p with
           | absent => ExitJson (json_output (image_name (p_name p))
                                   (image_tag (p_name p)) false)
           | present => FailJson (tag_message (image_tag (p_name p))
                                    (image_name (p_name p)))
           end).
Proof.
  intros Hv Hr Hd. rewrite (run_main_looked_up _ _ _ Hv Hr), Hd.
  unfold apply_state. cbn [ui_digest]. destruct (p_state p).
  - run_step. rewrite run_ret. cbv beta iota. by rewrite run_fail_json.
  - run_step. by rewrite run_exit_json.
Qed.

Lemma run_main_resolved_no_tags p w repo d :
  supported (w_hub w) →
  repositories (w_hub w) !! image_name (p_name p) = Some repo →
  repo !! image_tag (p_name p) = Some d →
  p_state p = absent ∨ none_or_empty (p_tags p) = true →
  run (main p) w =
  if match p_state p with absent => false | present => p_append p end
  then (w, Stop (ExitJson (json_output (image_name (p_name p))
                             (image_tag (p_name p)) false)))
  else (World (update_repository (image_name (p_name p))
                 (filter (λ kv, kv.2 ≠ d)) (w_hub w))
              (w_calls w ++ [DeleteImage (image_name (p_name p)) d]),
        Stop (ExitJson [("changed", JBool true)])).
Proof.
  intros Hv Hr Hd Hcase. rewrite (run_main_looked_up _ _ _ Hv Hr), Hd.
  unfold apply_state. cbn [ui_digest]. destruct (p_state p).
  - destruct Hcase as [|He]; [done|].
    run_step. rewrite run_ret. cbv beta iota.
    run_step. rewrite He. run_step. destruct (p_append p).
    + by rewrite run_exit_json.
    + rewrite run_ret. cbv beta iota. by rewrite run_delete_image.
  - run_step. by rewrite run_delete_image.
Qed.

(** A second run of [main] with the same parameters, when the first one
    exited and the tag of the name still resolves: nothing is sent, the
    hub is as the first run left it, and [changed] is false. *)
Lemma run_main_again (p : module_params) (w w' : world) (output : json)
    (repo' : gmap string string) (d' : string) :
  run (main p) w = (w', Stop (ExitJson output)) →
  repositories (w_hub w') !! image_name (p_name p) = Some repo' →
  repo' !! image_tag (p_name p) = Some d' →
  run (main p) w'
  = (w', Stop (ExitJson (json_output (image_name (p_name p))
                           (image_tag (p_name p)) false))).
Proof.
  intros Hrun Hr' Hd'.
  destruct (Py.str_lt (server_version (w_hub w)) "4.3.2") eqn:Hv.
  { by rewrite (run_main_unsupported _ _ Hv) in Hrun. }
  destruct (repositories (w_hub w) !! image_name (p_name p))
    as [repo|] eqn:Hr.
  2: { by rewrite (run_main_no_repository _ _ Hv Hr) in Hrun. }
  destruct (repo !! image_tag (p_name p)) as [d|] eqn:Hd.
  2: { rewrite (run_main_unresolved _ _ _ Hv Hr Hd) in Hrun.
       destruct (p_state p); [done|]. injection Hrun as <- _.
       congruence. }
  assert (supported (w_hub w)) as Hsup by exact Hv.
  destruct (p_state p) eqn:Hs.
  - destruct (none_or_empty (p_tags p)) eqn:He.
    + rewrite (run_main_resolved_no_tags _ _ _ _ Hsup Hr Hd (or_intror He)), Hs
        in Hrun.
      destruct (p_append p) eqn:Ha.
      * injection Hrun as <- _.
        by rewrite (run_main_resolved_no_tags _ _ _ _ Hsup Hr Hd (or_intror He)),
          Hs, Ha.
      * injection Hrun as <- _. cbn [w_hub] in Hr'.
        rewrite (update_repository_lookup _ _ _ _ Hr) in Hr'.
        injection Hr' as <-. by destruct (deleted_unresolved _ _ _ _ Hd Hd').
    + destruct (none_or_empty_false _ He) as (req & Ht & Hne).
      rewrite (run_main_reconciles p w repo d req Hsup Hr Hd Hs Ht Hne) in Hrun.
      injection Hrun as <- _. cbn [w_hub] in Hr'.
      rewrite (update_repository_lookup _ _ _ _ Hr) in Hr'.
      injection Hr' as <-.
      set (current := image_tags repo d) in *.
      set (add := tags_to_add current req) in *.
      set (remove := tags_to_remove current req (p_append p)) in *.
      set (repo1 := (untagged d (elements remove) ∘ tagged d (elements add)) repo)
        in *.
      assert (d' = d) as ->.
      { apply untagged_lookup_Some in Hd'. rewrite tagged_lookup in Hd'.
        destruct (decide (image_tag (p_name p) ∈ elements add)); congruence. }
      assert (image_tags repo1 d = resulting_tags current req (p_append p))
        as Hres by apply resulting_tags_hub.
      set (w1 := World _ _).
      assert (supported (w_hub w1)) as Hsup1 by exact Hv.
      assert (repositories (w_hub w1) !! image_name (p_name p) = Some repo1)
        as Hr1 by (by apply update_repository_lookup).
      rewrite (run_main_reconciles p w1 repo1 d req Hsup1 Hr1 Hd' Hs Ht Hne).
      rewrite Hres, resulting_tags_add_none, resulting_tags_remove_none,
        resulting_tags_unchanged, elements_empty.
      cbn [fmap list_fmap]. unfold tagged, untagged. simpl.
      rewrite !app_nil_r. f_equal.
      subst w1. cbn [w_hub w_calls]. f_equal.
      apply update_repository_id.
  - rewrite (run_main_resolved_no_tags _ _ _ _ Hsup Hr Hd (or_introl Hs)), Hs
      in Hrun.
    injection Hrun as <- _. cbn [w_hub] in Hr'.
    rewrite (update_repository_lookup _ _ _ _ Hr) in Hr'.
    injection Hr' as <-. by destruct (deleted_unresolved _ _ _ _ Hd Hd').
Qed.

(** X11. Two runs of the module with the same parameters: when the first
    run exited and the tag of the name still resolves on the hub it left,
    the second run sends nothing, leaves the hub as it is and reports
    [changed=false]. *)
Theorem main_twice (p : module_params) (w w' : world) (output : json)
    (repo' : gmap string string) (d' : string) :
  run (main p) w = (w', Stop (ExitJson output)) →
  repositories (w_hub w') !! image_name (p_name p) = Some repo' →
  repo' !! image_tag (p_name p) = Some d' →
  run (main p) w'
  = (w', Stop (ExitJson (json_output (image_name (p_name p))
                           (image_tag (p_name p)) false))).
Proof. apply run_main_again. Qed.

(** The proviso matters: in replace mode the tag of the name is removed
    when it is not among the requested tags, and a second run then fails
    at line 156. *)
Example second_run_without_the_tag :
  ∃ w1 : world,
    run (main (Params "ee:v1" (Some ["v2"; "v3"]) false present)) sample_world
    = (w1, Stop (ExitJson (json_output "ee" "v1" true)))
    ∧ run (main (Params "ee:v1" (Some ["v2"; "v3"]) false present)) w1
      = (w1, Stop (FailJson
                     "The image tag v1 for the ee repository does not exist.")).
Proof.
  exists (run (main (Params "ee:v1" (Some ["v2"; "v3"]) false present))
            sample_world).1.
  split; vm_compute; reflexivity.
Qed.

End two_runs.

(** * Further properties of the module *)

(** ** Every run follows one path *)

Lemma main_path_run (p : module_params) (w : world) :
  main_path p w (run (main p) w).
Proof.
  destruct (Py.str_lt (server_version (w_hub w)) "4.3.2") eqn:Hv.
  { rewrite (run_main_unsupported _ _ Hv). by constructor. }
  destruct (repositories (w_hub w) !! image_name (p_name p))
    as [repo|] eqn:Hr.
  2: { rewrite (run_main_no_repository _ _ Hv Hr). by constructor. }
  destruct (repo !! image_tag (p_name p)) as [d|] eqn:Hd.
  2: { rewrite (run_main_unresolved _ _ _ Hv Hr Hd).
       destruct (p_state p) eqn:Hs.
       - by eapply path_no_tag.
       - by eapply path_absent_already. }
  destruct (p_state p) eqn:Hs.
  - destruct (none_or_empty (p_tags p)) eqn:He.
    + rewrite (run_main_resolved_no_tags _ _ _ _ Hv Hr Hd (or_intror He)), Hs.
      destruct (p_append p) eqn:Ha.
      * by eapply path_nothing_to_do.
      * eapply path_delete_image; eauto.
    + destruct (none_or_empty_false _ He) as (req & Ht & Hne).
      rewrite (run_main_reconciles p w repo d req Hv Hr Hd Hs Ht Hne).
      by eapply path_reconcile.
  - rewrite (run_main_resolved_no_tags _ _ _ _ Hv Hr Hd (or_introl Hs)), Hs.
    eapply path_delete_image; eauto.
Qed.

(** ** The checks before the image is looked up (lines 126-138) *)

(** X1. A version that Python orders before ["4.3.2"] stops the module at
    line 128, whatever the parameters: the failure message quotes the
    version, nothing is sent and the hub is as it was. *)
Theorem unsupported_version_fails (p : module_params) (w : world) :
  Py.str_lt (server_version (w_hub w)) "4.3.2" = true →
  run (main p) w
  = (w, Stop (FailJson
       ("This module requires private automation hub version 4.3.2 or later. Your version is "
        +:+ server_version (w_hub w)))).
Proof. apply run_main_unsupported. Qed.

Lemma unsupported_version_fails_witness :
  run (main (Params "ee:v1" None true absent))
    (World (Hub "4.2.5" (<["ee" := sample_repo]> ∅)) [])
  = (World (Hub "4.2.5" (<["ee" := sample_repo]> ∅)) [],
     Stop (FailJson
       "This module requires private automation hub version 4.3.2 or later. Your version is 4.2.5")).
Proof.
  apply (unsupported_version_fails (Params "ee:v1" None true absent)
           (World (Hub "4.2.5" (<["ee" := sample_repo]> ∅)) [])).
  reflexivity.
Defined.

(** X2. The first character decides the version test when it is not
    ["4"]: a hub whose version starts with a character before ["4"] (as
    ["10.0.1"] or ["3.9"]) is refused with the version failure, and a hub
    whose version starts with a character after ["4"] (as ["5.0"], and
    ["50.0.0"] as well) passes the test whatever follows. The empty
    version is refused. *)
Theorem version_test_first_character (c : ascii) (rest : string)
    (p : module_params) (repos : gmap string (gmap string string))
    (calls : list call) :
  ((N_of_ascii c < 52)%N →
   run (main p) (World (Hub (String c rest) repos) calls)
   = (World (Hub (String c rest) repos) calls,
      Stop (FailJson (version_message (String c rest)))))
  ∧ ((52 < N_of_ascii c)%N → supported (Hub (String c rest) repos))
  ∧ run (main p) (World (Hub "" repos) calls)
    = (World (Hub "" repos) calls, Stop (FailJson (version_message ""))).
Proof.
  split; [|split].
  - intros H. apply run_main_unsupported. simpl. unfold Py.chr_lt.
    change (N_of_ascii "4") with 52%N.
    by rewrite (proj2 (N.ltb_lt _ _) H).
  - intros H. unfold supported. simpl. unfold Py.chr_lt.
    change (N_of_ascii "4") with 52%N.
    rewrite (proj2 (N.ltb_ge _ _)) by lia.
    by rewrite (proj2 (N.ltb_lt _ _) H).
  - by apply run_main_unsupported.
Qed.

Lemma version_test_first_character_witness :
  run (main (Params "ee:v1" (Some ["v2"]) true present))
    (World (Hub "10.0.1" (<["ee" := sample_repo]> ∅)) [])
  = (World (Hub "10.0.1" (<["ee" := sample_repo]> ∅)) [],
     Stop (FailJson (version_message "10.0.1"))).
Proof.
  refine (proj1 (version_test_first_character "1" "0.0.1"
                   (Params "ee:v1" (Some ["v2"]) true present)
                   (<["ee" := sample_repo]> ∅) []) _).
  vm_compute. reflexivity.
Defined.

Section single_digits.

Lemma agrees_all :
  forallb (λ a, forallb (λ b, forallb (agrees a b) digits) digits) digits = true.
Proof. vm_compute. reflexivity. Qed.

Lemma digit_In (n : N) : (n < 10)%N → In n digits.
Proof.
  intros H. unfold digits. simpl.
  assert (n = 0 ∨ n = 1 ∨ n = 2 ∨ n = 3 ∨ n = 4 ∨ n = 5 ∨ n = 6 ∨ n = 7
          ∨ n = 8 ∨ n = 9)%N as Hn by lia.
  naive_solver.
Qed.

End single_digits.

(** X3. On versions [a.b.c] whose three components have one digit each,
    the test of line 127 on the strings agrees with the order of versions
    the documentation means: the string is before ["4.3.2"] exactly when
    the version is below 4.3.2. *)
Theorem version_test_on_single_digits (a b c : N) :
  (a < 10)%N → (b < 10)%N → (c < 10)%N →
  Version.parse (dotted a b c) = Some [a; b; c]
  ∧ Py.str_lt (dotted a b c) "4.3.2"
    = Version.below [a; b; c] Version.minimum.
Proof.
  intros Ha%digit_In Hb%digit_In Hc%digit_In.
  pose proof agrees_all as Hall.
  rewrite forallb_forall in Hall. specialize (Hall a Ha).
  rewrite forallb_forall in Hall. specialize (Hall b Hb).
  rewrite forallb_forall in Hall. specialize (Hall c Hc).
  unfold agrees in Hall. apply andb_true_iff in Hall as [H1 H2].
  apply bool_decide_eq_true in H1. apply Bool.eqb_prop in H2. done.
Qed.

Lemma version_test_on_single_digits_witness :
  Version.parse "4.3.1" = Some [4; 3; 1]%N
  ∧ Py.str_lt "4.3.1" "4.3.2" = Version.below [4; 3; 1]%N Version.minimum.
Proof.
  apply (version_test_on_single_digits 4 3 1); reflexivity.
Defined.

(** X4. A repository that does not exist stops the module at line 138,
    whatever the state, the tags and the append flag (also with
    [state=absent]): the failure names the repository, nothing is sent and
    the hub is as it was. *)
Theorem missing_repository_fails (p : module_params) (w : world) :
  supported (w_hub w) →
  repositories (w_hub w) !! image_name (p_name p) = None →
  run (main p) w
  = (w, Stop (FailJson
       ("The " +:+ image_name (p_name p) +:+ " repository does not exist."))).
Proof. apply run_main_no_repository. Qed.

Lemma missing_repository_fails_witness :
  run (main (Params "other:v1" None true absent)) sample_world
  = (sample_world, Stop (FailJson "The other repository does not exist.")).
Proof.
  apply (missing_repository_fails (Params "other:v1" None true absent)
           sample_world); reflexivity.
Defined.

(** ** What every run does *)

Section every_run.

Lemma app_same_nil {A} (l sent : list A) : (l ++ sent)%list = l → sent = [].
Proof.
  intros H. apply (app_inv_head l). by rewrite app_nil_r.
Qed.

Lemma reconcile_requests_nil name d (add remove : gset string) :
  ((CreateTag name d <$> elements add)
   ++ (DeleteTag name d <$> elements remove))%list = []
  ↔ add = ∅ ∧ remove = ∅.
Proof.
  split.
  - intros [Ha Hr]%app_eq_nil.
    apply fmap_nil_inv in Ha. apply fmap_nil_inv in Hr.
    by apply elements_empty_inv, leibniz_equiv in Ha;
       apply elements_empty_inv, leibniz_equiv in Hr.
  - intros [-> ->]. by rewrite elements_empty.
Qed.

Lemma changed_false (current : gset string) req append :
  changed current req append = false ↔
  tags_to_add current req = ∅ ∧ tags_to_remove current req append = ∅.
Proof.
  unfold changed. destruct append.
  - rewrite bool_of_set_false. unfold tags_to_remove. naive_solver.
  - rewrite orb_false_iff, !bool_of_set_false. naive_solver.
Qed.

End every_run.

(** X5. Every run of the module ends through [exit_json] with a [changed]
    field in its output, or through [fail_json]: the module never falls off
    its end and never reaches [set(tags)] with [tags] unset. *)
Theorem main_always_reports (p : module_params) (w : world) :
  ∃ (w' : world) (t : termination),
    run (main p) w = (w', Stop t)
    ∧ ((∃ output b, t = ExitJson output ∧ changed_of t = Some b)
       ∨ ∃ msg, t = FailJson msg).
Proof.
  destruct (main_path_run p w); eexists _, _; (split; [done|]);
    first [ by right; eexists | by left; eexists _, _ ].
Qed.

(** X6. The three failures that [main] raises itself (lines 128, 138 and
    156) all come before the first request: on a hub that answers every
    call of the collaborators, a run that ends in a failure has sent
    nothing, has left the hub as it was, and carries one of these three
    messages. *)
Theorem failure_changes_nothing (p : module_params) (w w' : world)
    (msg : string) :
  run (main p) w = (w', Stop (FailJson msg)) →
  w' = w
  ∧ (msg = version_message (server_version (w_hub w))
     ∨ msg = repository_message (image_name (p_name p))
     ∨ msg = tag_message (image_tag (p_name p)) (image_name (p_name p))).
Proof.
  intros Hrun. pose proof (main_path_run p w) as Hpath.
  rewrite Hrun in Hpath. inversion Hpath; subst; auto.
Qed.

Lemma failure_changes_nothing_witness :
  sample_world = sample_world
  ∧ ("The image tag v9 for the ee repository does not exist."
     = version_message "4.3.2"
     ∨ "The image tag v9 for the ee repository does not exist."
       = repository_message "ee"
     ∨ "The image tag v9 for the ee repository does not exist."
       = tag_message "v9" "ee").
Proof.
  apply (failure_changes_nothing (Params "ee:v9" (Some ["v2"]) true present)
           sample_world sample_world
           "The image tag v9 for the ee repository does not exist.").
  vm_compute. reflexivity.
Defined.

(** X7. The [changed] flag of an exit tells whether a request was sent:
    it is true exactly when the log of requests grew, and when it is false
    the hub is as it was. *)
Theorem changed_iff_request_sent (p : module_params) (w w' : world)
    (t : termination) (b : bool) :
  run (main p) w = (w', Stop t) →
  changed_of t = Some b →
  (b = true ↔ w_calls w' ≠ w_calls w) ∧ (b = false → w' = w).
Proof.
  intros Hrun Hb. pose proof (main_path_run p w) as Hpath.
  rewrite Hrun in Hpath.
  inversion Hpath; subst; simpl in Hb; try discriminate;
    injection Hb as <-.
  - split; [split; [done | by intros []] | done].
  - split; [split; [done | by intros []] | done].
  - split; [|done]. split; [|done]. intros _ He.
    by apply app_same_nil in He.
  - split.
    + split.
      * intros Hch He. apply app_same_nil in He.
        apply reconcile_requests_nil in He.
        apply changed_false in He. congruence.
      * intros Hne. destruct (changed _ _ _) eqn:Hch; [done|].
        exfalso. apply Hne. apply changed_false in Hch as [-> ->].
        rewrite elements_empty. simpl. by rewrite app_nil_r.
    + intros [-> ->]%changed_false. rewrite elements_empty.
      unfold tagged, untagged. simpl. rewrite app_nil_r.
      destruct w as [h c]. simpl. f_equal.
      apply update_repository_id.
Qed.

Lemma changed_iff_request_sent_witness :
  (true = true ↔
   [CreateTag "ee" "sha256:aa" "v3"] ≠ w_calls sample_world)
  ∧ (true = false →
     World (Hub "4.3.2"
              (<["ee" := <["v3" := "sha256:aa"]> sample_repo]> ∅))
           [CreateTag "ee" "sha256:aa" "v3"]
     = sample_world).
Proof.
  apply (changed_iff_request_sent
           (Params "ee:v1" (Some ["v2"; "v3"]) true present) sample_world
           (World (Hub "4.3.2"
                     (<["ee" := <["v3" := "sha256:aa"]> sample_repo]> ∅))
                  [CreateTag "ee" "sha256:aa" "v3"])
           (ExitJson (json_output "ee" "v1" true)) true).
  - vm_compute. reflexivity.
  - reflexivity.
Defined.

Section requests.

Lemma other_repository_lookup name f h name' :
  name' ≠ name →
  repositories (update_repository name f h) !! name' = repositories h !! name'.
Proof. intros H. simpl. by rewrite lookup_alter_ne. Qed.

Lemma reconcile_requests_NoDup name d (add remove : gset string) :
  NoDup ((CreateTag name d <$> elements add)
         ++ (DeleteTag name d <$> elements remove))%list.
Proof.
  apply NoDup_app. split; [|split].
  - apply NoDup_fmap_2; [by intros ?? [=] | apply NoDup_elements].
  - intros c (x & -> & _)%list_elem_of_fmap (y & [=] & _)%list_elem_of_fmap.
  - apply NoDup_fmap_2; [by intros ?? [=] | apply NoDup_elements].
Qed.

End requests.

(** X8. Whatever the parameters and the hub, the requests of a run are all
    about the repository of the name and about the digest its tag resolves
    to; the server version and the other repositories of the hub are as
    they were. *)
Theorem requests_stay_on_the_image (p : module_params) (w : world) :
  let w' := (run (main p) w).1 in
  ∃ sent : list call,
    w_calls w' = (w_calls w ++ sent)%list
    ∧ (∀ c, c ∈ sent →
         call_repository c = image_name (p_name p)
         ∧ ∃ repo, repositories (w_hub w) !! image_name (p_name p) = Some repo
                   ∧ repo !! image_tag (p_name p) = Some (call_digest c))
    ∧ server_version (w_hub w') = server_version (w_hub w)
    ∧ ∀ name', name' ≠ image_name (p_name p) →
        repositories (w_hub w') !! name' = repositories (w_hub w) !! name'.
Proof.
  intros w'. subst w'. destruct (main_path_run p w); cbn [fst w_calls w_hub].
  1-5: exists []; rewrite app_nil_r; split; [done|];
       split; [by intros c ?%elem_of_nil | done].
  - eexists. split; [done|]. split.
    + intros c ->%list_elem_of_singleton. simpl. eauto.
    + split; [done|]. intros name' Hne. by apply other_repository_lookup.
  - eexists. split; [done|]. split.
    + intros c [Hc|Hc]%elem_of_app;
        apply list_elem_of_fmap in Hc as (x & -> & _); simpl; eauto.
    + split; [done|]. intros name' Hne. by apply other_repository_lookup.
Qed.

(** X9. No request is sent twice in a run, also when the [tags] list
    repeats a tag: the requests of a run are pairwise distinct. *)
Theorem requests_are_distinct (p : module_params) (w : world) :
  ∃ sent : list call,
    w_calls (run (main p) w).1 = (w_calls w ++ sent)%list ∧ NoDup sent.
Proof.
  destruct (main_path_run p w); cbn [fst w_calls].
  1-5: exists []; rewrite app_nil_r; split; [done | constructor].
  - eexists. split; [done|]. apply NoDup_singleton.
  - eexists. split; [done|]. apply reconcile_requests_NoDup.
Qed.

(** X10. With [state=absent] the [tags] and [append] options are ignored:
    two runs that differ only in them end the same way on the same hub. *)
Theorem absent_ignores_tags (p p' : module_params) (w : world) :
  p_name p = p_name p' →
  p_state p = absent →
  p_state p' = absent →
  run (main p) w = run (main p') w.
Proof.
  intros Hn Hs Hs'.
  destruct (Py.str_lt (server_version (w_hub w)) "4.3.2") eqn:Hv.
  { by rewrite !(run_main_unsupported _ _ Hv). }
  destruct (repositories (w_hub w) !! image_name (p_name p))
    as [repo|] eqn:Hr.
  2: { rewrite (run_main_no_repository p _ Hv Hr).
       rewrite Hn in Hr. rewrite (run_main_no_repository p' _ Hv Hr).
       by rewrite Hn. }
  destruct (repo !! image_tag (p_name p)) as [d|] eqn:Hd.
  - rewrite (run_main_resolved_no_tags p _ _ _ Hv Hr Hd (or_introl Hs)), Hs.
    rewrite Hn in Hr, Hd.
    rewrite (run_main_resolved_no_tags p' _ _ _ Hv Hr Hd (or_introl Hs')), Hs'.
    by rewrite Hn.
  - rewrite (run_main_unresolved p _ _ Hv Hr Hd), Hs.
    rewrite Hn in Hr, Hd.
    rewrite (run_main_unresolved p' _ _ Hv Hr Hd), Hs'.
    by rewrite Hn.
Qed.

Lemma absent_ignores_tags_witness :
  run (main (Params "ee:v1" None true absent)) sample_world
  = run (main (Params "ee:v1" (Some ["v2"; "v3"]) false absent)) sample_world.
Proof.
  apply (absent_ignores_tags (Params "ee:v1" None true absent)
           (Params "ee:v1" (Some ["v2"; "v3"]) false absent) sample_world);
    reflexivity.
Defined.

(** ** Running the module again *)

Lemma main_twice_witness :
  run (main (Params "ee:v1" (Some ["v2"; "v3"]) true present))
    (World (Hub "4.3.2" (<["ee" := <["v3" := "sha256:aa"]> sample_repo]> ∅))
           [CreateTag "ee" "sha256:aa" "v3"])
  = (World (Hub "4.3.2" (<["ee" := <["v3" := "sha256:aa"]> sample_repo]> ∅))
           [CreateTag "ee" "sha256:aa" "v3"],
     Stop (ExitJson (json_output "ee" "v1" false))).
Proof.
  apply (main_twice (Params "ee:v1" (Some ["v2"; "v3"]) true present)
           sample_world _ (json_output "ee" "v1" true)
           (<["v3" := "sha256:aa"]> sample_repo) "sha256:aa").
  - vm_compute. reflexivity.
  - vm_compute. reflexivity.
  - vm_compute. reflexivity.
Defined.

(** X12. In append mode ([state=present], [append=true]) the module is
    idempotent without any proviso: after a run that exited, a second run
    with the same parameters sends nothing, leaves the hub as it is and
    reports [changed=false]. *)
Theorem append_runs_are_idempotent (p : module_params) (w w' : world)
    (output : json) :
  p_state p = present →
  p_append p = true →
  run (main p) w = (w', Stop (ExitJson output)) →
  run (main p) w'
  = (w', Stop (ExitJson (json_output (image_name (p_name p))
                           (image_tag (p_name p)) false))).
Proof.
  intros Hs Ha Hrun. pose proof (main_path_run p w) as Hpath.
  rewrite Hrun in Hpath. inversion Hpath; subst.
  - congruence.
  - done.
  - naive_solver congruence.
  - eapply run_main_again; [exact Hrun| |].
    + cbn [w_hub]. by apply update_repository_lookup.
    + rewrite Ha. unfold tags_to_remove. rewrite elements_empty.
      unfold untagged. simpl. rewrite tagged_lookup.
      by destruct (decide _).
Qed.

Lemma append_runs_are_idempotent_witness :
  run (main (Params "ee:v1" (Some ["v2"; "v3"]) true present))
    (World (Hub "4.3.2" (<["ee" := <["v3" := "sha256:aa"]> sample_repo]> ∅))
           [CreateTag "ee" "sha256:aa" "v3"])
  = (World (Hub "4.3.2" (<["ee" := <["v3" := "sha256:aa"]> sample_repo]> ∅))
           [CreateTag "ee" "sha256:aa" "v3"],
     Stop (ExitJson (json_output "ee" "v1" false))).
Proof.
  apply (append_runs_are_idempotent
           (Params "ee:v1" (Some ["v2"; "v3"]) true present)
           sample_world _ (json_output "ee" "v1" true)).
  - reflexivity.
  - reflexivity.
  - vm_compute. reflexivity.
Defined.



(** ** The image reference, again (lines 118-120) *)

(** X14. The two parts of the image reference give the name back: a name
    with a colon is its repository name, a colon and its tag; a name
    without a colon is its repository name. The tag never holds a colon. *)
Theorem image_reference_round_trip (s : string) :
  (Py.contains ":" s = true → image_name s +:+ String ":" (image_tag s) = s)
  ∧ (Py.contains ":" s = false → image_name s = s)
  ∧ Py.contains ":" (image_tag s) = false.
Proof.
  unfold image_name, image_tag, Py.rsplit1, Py.item.
  destruct (Py.rpartition ":" s) as [[before after]|] eqn:Hs.
  - apply rpartition_Some in Hs as [-> Hc]. simpl.
    split; [done|]. split; [|done].
    intros H. exfalso. revert H. clear.
    induction before as [|c before IH]; simpl.
    + done.
    + intros [_ H]%orb_false_iff. by apply IH.
  - apply rpartition_None in Hs. simpl.
    split; [congruence|]. done.
Qed.

Lemma image_reference_round_trip_witness :
  image_name "registry:5000/ee:2.0" +:+ String ":" (image_tag "registry:5000/ee:2.0")
  = "registry:5000/ee:2.0".
Proof.
  refine (proj1 (image_reference_round_trip "registry:5000/ee:2.0") _).
  reflexivity.
Defined.

(** X15. A name that ends with a colon asks for the empty tag, not for
    ["latest"]: the repository name is the text before that colon. *)
Theorem trailing_colon_gives_empty_tag (a : string) :
  image_name (a +:+ ":") = a ∧ image_tag (a +:+ ":") = "".
Proof. by apply (image_reference_colon a ""). Qed.
